(** * Finite element modal analysis: triangular element and analysis driver

    A shallow embedding of [utlis/element.py] (the constant-strain triangle)
    and of [main_modal.py] (the modal-analysis driver and its von Mises
    post-processing), with the properties of the specification proved over
    it.

    Number model.  The source computes on float32 and float64 tensors.  The
    functions are written once over an interface of scalar operations
    ([Arith]) and read at two kinds of instance:
    - [IEEE d], binary floating point of dtype [d] as the Standard Library
      specifies it ([SpecFloat]: round to nearest even, signed zeros,
      infinities, NaN, overflow and underflow), which is what the code
      computes;
    - [Real_arith], the same expressions over the real numbers, which is
      what the formulas mean.
    A theorem stated for every instance holds of the code; a theorem
    stated for [Real_arith] holds of the formulas and of the code only up
    to rounding.  Device placement ([.to(device)]) is not modelled. *)

From Stdlib Require Import Reals Lra String List Bool Arith Lia ZArith QArith Qabs.
From Stdlib Require Import SpecFloat.
Import ListNotations.

Local Open Scope R_scope.

(** ** Python exceptions and results *)

Inductive exn : Type :=
| ValueError (msg : string)
| OtherError (cls msg : string).

Definition result (A : Type) : Type := (exn + A)%type.

Definition ret {A : Type} (a : A) : result A := inr a.
Definition raise {A : Type} (e : exn) : result A := inl e.

Definition raises {A : Type} (c : result A) : Prop :=
  exists msg, c = inl (ValueError msg).

Definition returns {A : Type} (c : result A) : Prop :=
  exists a, c = inr a.

(** ** Scalars

    What the source does to tensor entries.  [s_lit q] is a Python number
    written in the source ([0.5], [1e-10], [2], [0]) taken into the dtype of
    the tensor it meets; [s_float] is the conversion [dtype=torch.float]. *)

Class Arith (T : Type) : Type := {
  s_lit : Q -> T;
  s_add : T -> T -> T;
  s_sub : T -> T -> T;
  s_mul : T -> T -> T;
  s_div : T -> T -> T;
  s_abs : T -> T;
  s_sqrt : T -> T;
  s_ltb : T -> T -> bool;
  s_float : T -> T
}.

(** *** Real numbers *)

Definition Rltb (x y : R) : bool := if Rlt_dec x y then true else false.

#[export] Instance Real_arith : Arith R := {
  s_lit := Q2R;
  s_add := Rplus;
  s_sub := Rminus;
  s_mul := Rmult;
  s_div := Rdiv;
  s_abs := Rabs;
  s_sqrt := sqrt;
  s_ltb := Rltb;
  s_float := fun x => x
}.

(** *** IEEE 754 binary floating point *)

Inductive dtype : Type := float32 | float64.

Definition prec_of (d : dtype) : Z :=
  match d with float32 => 24%Z | float64 => 53%Z end.

Definition emax_of (d : dtype) : Z :=
  match d with float32 => 128%Z | float64 => 1024%Z end.

(** Conversion of a float to dtype [d], rounding to nearest even. *)
Definition round_to (d : dtype) (x : spec_float) : spec_float :=
  match x with
  | S754_finite s m e => binary_round (prec_of d) (emax_of d) s m e
  | _ => x
  end.

(** A Python number [n/m] is a double, the correctly rounded quotient. *)
Definition py_float (q : Q) : spec_float :=
  SFdiv 53 1024 (binary_normalize 53 1024 (Qnum q) 0 false)
                (binary_normalize 53 1024 (Zpos (Qden q)) 0 false).

(** float32 results stay as they are under [dtype=torch.float]; float64
    results are rounded to float32. *)
Definition to_float32 (d : dtype) (x : spec_float) : spec_float :=
  match d with
  | float32 => x
  | float64 => round_to float32 x
  end.

Definition IEEE (d : dtype) : Arith spec_float := {|
  s_lit := fun q => round_to d (py_float q);
  s_add := SFadd (prec_of d) (emax_of d);
  s_sub := SFsub (prec_of d) (emax_of d);
  s_mul := SFmul (prec_of d) (emax_of d);
  s_div := SFdiv (prec_of d) (emax_of d);
  s_abs := SFabs;
  s_sqrt := SFsqrt (prec_of d) (emax_of d);
  s_ltb := SFltb;
  s_float := to_float32 d
|}.

(** The rational number a float stands for (0 for infinities and NaN). *)
Definition SF2Q (x : spec_float) : Q :=
  match x with
  | S754_finite s m e =>
      let v := match e with
               | Zpos p => inject_Z (Zpos m * 2 ^ Zpos p)
               | Z0 => inject_Z (Zpos m)
               | Zneg p => Qmake (Zpos m) (2 ^ p)
               end in
      if s then Qopp v else v
  | _ => 0%Q
  end.

(** ** Tensors

    A tensor of rank n is an n-fold nested list; the shapes the source
    checks for are checked on the nesting (an empty batch stands for shape
    (0,3,2)). *)

Definition tensor1 (T : Type) : Type := list T.
Definition tensor2 (T : Type) : Type := list (tensor1 T).
Definition tensor3 (T : Type) : Type := list (tensor2 T).

(** Elementwise binary operation on two tensors of one shape. *)
Fixpoint map2 {X Y Z : Type} (f : X -> Y -> Z) (a : list X) (b : list Y) : list Z :=
  match a, b with
  | x :: a', y :: b' => f x y :: map2 f a' b'
  | _, _ => []
  end.

Definition any (m : list bool) : bool := existsb (fun b => b) m.

(** [t[:, j]]: entry [j] of every row.  Rows are as wide as the source
    expects; a column past the width of a row, which numpy answers with an
    [IndexError], reads [d] here. *)
Definition slice1 {X : Type} (d : X) (j : nat) (t : list (list X)) : list X :=
  map (fun row => nth j row d) t.

(** [torch.stack(ts, dim=1)] of tensors of one shape [(K, ...)]: entry [k] of
    the result lists entry [k] of every tensor of [ts]. *)
Definition stack_dim1 {X : Type} (d : X) (ts : list (list X)) : list (list X) :=
  match ts with
  | [] => []
  | t0 :: _ => map (fun k => map (fun t => nth k t d) ts) (seq 0 (List.length t0))
  end.

(** The Python numbers of the source. *)
Definition half : Q := 1 # 2.
Definition tol : Q := 1 # 10000000000.

Section Elementwise.

Context {T : Type} {Ar : Arith T}.

Definition t_add (a b : tensor1 T) : tensor1 T := map2 s_add a b.
Definition t_sub (a b : tensor1 T) : tensor1 T := map2 s_sub a b.
Definition t_mul (a b : tensor1 T) : tensor1 T := map2 s_mul a b.
Definition t_div (a b : tensor1 T) : tensor1 T := map2 s_div a b.
(** scalar [c * a]; [a ** 2], which numpy computes as [a * a] *)
Definition t_scale (c : Q) (a : tensor1 T) : tensor1 T := map (s_mul (s_lit c)) a.
Definition t_sq (a : tensor1 T) : tensor1 T := map (fun x => s_mul x x) a.
Definition t_abs (a : tensor1 T) : tensor1 T := map s_abs a.
Definition t_sqrt (a : tensor1 T) : tensor1 T := map s_sqrt a.
Definition zeros_like (a : tensor1 T) : tensor1 T := map (fun _ => s_lit 0) a.

(** [a < c] against a Python number, as a tensor of booleans. *)
Definition t_lt (a : tensor1 T) (c : Q) : list bool :=
  map (fun x => s_ltb x (s_lit c)) a.

End Elementwise.

(** ** [utlis/element.py] *)

Module TriangularElement.

Definition element_dof : nat := 6.
Definition node_per_element : nat := 3.

(** The degeneracy threshold of both B-matrix functions. *)
Definition area_tol : Q := tol.

(** [shape[1] == 3 and shape[2] == 2] of a rank-3 tensor. *)
Definition is_3x2 {T : Type} (e : tensor2 T) : bool :=
  match e with
  | [[_; _]; [_; _]; [_; _]] => true
  | _ => false
  end.

Section Functions.

Context {T : Type} {Ar : Arith T}.

(** [xi, eta = natural_coords] unpacks exactly two entries; the result has
    the dtype of the input. *)
Definition shape_functions (natural_coords : tensor1 T) : result (tensor1 T) :=
  match natural_coords with
  | [xi; eta] => ret [s_sub (s_sub (s_lit 1) xi) eta; xi; eta]
  | [] => raise (ValueError "not enough values to unpack (expected 2, got 0)")
  | [_] => raise (ValueError "not enough values to unpack (expected 2, got 1)")
  | _ => raise (ValueError "too many values to unpack (expected 2)")
  end.

Definition compute_B_matrix (node_coords : tensor2 T) : result (tensor2 T) :=
  match node_coords with
  | [[x1; y1]; [x2; y2]; [x3; y3]] =>
      let A := s_mul (s_lit half)
                 (s_add (s_add (s_mul x1 (s_sub y2 y3)) (s_mul x2 (s_sub y3 y1)))
                        (s_mul x3 (s_sub y1 y2))) in
      if s_ltb (s_abs A) (s_lit area_tol) then
        raise (ValueError "The provided node coordinates result in a degenerate triangle with almost zero area.")
      else
        let b1 := s_div (s_sub y2 y3) (s_mul (s_lit 2) A) in
        let b2 := s_div (s_sub y3 y1) (s_mul (s_lit 2) A) in
        let b3 := s_div (s_sub y1 y2) (s_mul (s_lit 2) A) in
        let c1 := s_div (s_sub x3 x2) (s_mul (s_lit 2) A) in
        let c2 := s_div (s_sub x1 x3) (s_mul (s_lit 2) A) in
        let c3 := s_div (s_sub x2 x1) (s_mul (s_lit 2) A) in
        (* torch.tensor([...], dtype=torch.float) *)
        ret (map (map s_float)
               [ [b1; s_lit 0; b2; s_lit 0; b3; s_lit 0];
                 [s_lit 0; c1; s_lit 0; c2; s_lit 0; c3];
                 [c1; b1; c2; b2; c3; b3] ])
  | _ => raise (ValueError "node_coords shape should be (3, 2) for a single triangle")
  end.

Definition compute_B_matrix_vectorized (node_coords : tensor3 T) : result (tensor3 T) :=
  if negb (forallb is_3x2 node_coords) then
    raise (ValueError "node_coords shape should be (num_elements, 3, 2) for multiple triangles")
  else
    (* x1, y1 = node_coords[:, 0].t()  and so on *)
    let n0 := slice1 [] 0 node_coords in
    let n1 := slice1 [] 1 node_coords in
    let n2 := slice1 [] 2 node_coords in
    let x1 := slice1 (s_lit 0) 0 n0 in let y1 := slice1 (s_lit 0) 1 n0 in
    let x2 := slice1 (s_lit 0) 0 n1 in let y2 := slice1 (s_lit 0) 1 n1 in
    let x3 := slice1 (s_lit 0) 0 n2 in let y3 := slice1 (s_lit 0) 1 n2 in
    let A := t_scale half
               (t_add (t_add (t_mul x1 (t_sub y2 y3)) (t_mul x2 (t_sub y3 y1)))
                      (t_mul x3 (t_sub y1 y2))) in
    if any (t_lt (t_abs A) area_tol) then
      raise (ValueError "At least one set of node coordinates result in a degenerate triangle with almost zero area.")
    else
      let b1 := t_div (t_sub y2 y3) (t_scale 2 A) in
      let b2 := t_div (t_sub y3 y1) (t_scale 2 A) in
      let b3 := t_div (t_sub y1 y2) (t_scale 2 A) in
      let c1 := t_div (t_sub x3 x2) (t_scale 2 A) in
      let c2 := t_div (t_sub x1 x3) (t_scale 2 A) in
      let c3 := t_div (t_sub x2 x1) (t_scale 2 A) in
      ret (stack_dim1 []
             [ stack_dim1 (s_lit 0)
                 [b1; zeros_like b1; b2; zeros_like b2; b3; zeros_like b3];
               stack_dim1 (s_lit 0)
                 [zeros_like c1; c1; zeros_like c2; c2; zeros_like c3; c3];
               stack_dim1 (s_lit 0) [c1; b1; c2; b2; c3; b3] ]).

End Functions.

End TriangularElement.

(** ** [main_modal.py] *)

(** The parsed command line ([argparse.Namespace]). *)
Record Namespace : Type := mkNamespace {
  device : string;
  geometry_path : string;
  material_path : string;
  loading_path : string;
  incompatible_mode_element : bool
}.

Definition set_incompatible_mode_element (b : bool) (a : Namespace) : Namespace :=
  {| device := device a;
     geometry_path := geometry_path a;
     material_path := material_path a;
     loading_path := loading_path a;
     incompatible_mode_element := b |}.

(** The methods of [FiniteElementModel] the driver calls, with their
    arguments. *)
Inductive call : Type :=
| read_geom_from_yaml (path : string)
| read_material_from_yaml (path : string)
| read_loading_from_yaml (path : string)
| to_device (dev : string)
| init_element_class
| generate_material_dict
| compute_mass_matrix
| compute_element_stiffness_with_shear_locking
| compute_element_stiffness
| assemble_global_stiffness
| assemble_global_mass_matrix
| assemble_global_load_vector
| solve_system_modal
| compute_GP_strains_stresses.

(** [point_data]: a dict in insertion order. *)
Definition dict (T : Type) : Type := list (string * tensor1 T).

(** What a run does, in the order it does it. *)
Inductive event (T : Type) : Type :=
| Log (msg : string)
| Clock
| Enter (c : call)
| Leave (c : call)
| WriteVtk (node_coords : tensor2 T) (cell_array : list (list nat))
           (cell_types : list nat) (point_data : dict T) (filename : string).

Arguments Log {T} msg.
Arguments Clock {T}.
Arguments Enter {T} c.
Arguments Leave {T} c.
Arguments WriteVtk {T} node_coords cell_array cell_types point_data filename.

(** [utlis.fem_module] and [utlis.function] are imported by the driver and
    are not part of it: the driver is written against this interface.
    [exec c m] is the effect of method [c] on the model object [m], or the
    exception it raises. *)
Record Collaborators (T : Type) : Type := mkCollaborators {
  Model : Type;
  FiniteElementModel : Model;
  exec : call -> Model -> exn + Model;
  gauss_point_coordinates : Model -> tensor2 T;
  gauss_point_strains : Model -> tensor2 T;
  gauss_point_stresses : Model -> tensor2 T;
  node_coords : Model -> tensor2 T;
  global_displacements : Model -> tensor1 T;
  element_node_indices : Model -> list (list nat);
  elementClass_node_per_element : Model -> nat;
  num_dimensions : Model -> nat;
  interpolate_to_nodes : tensor2 T -> tensor2 T -> tensor2 T -> tensor2 T;
  get_vtk_cell_type : nat -> nat -> nat;
  add_zero_z_coordinate : tensor2 T -> tensor2 T;
  path_parent : string -> string;
  path_join : string -> string -> string
}.

Arguments Model {T} c.
Arguments FiniteElementModel {T} c.
Arguments exec {T} c _ _.
Arguments gauss_point_coordinates {T} c _.
Arguments gauss_point_strains {T} c _.
Arguments gauss_point_stresses {T} c _.
Arguments node_coords {T} c _.
Arguments global_displacements {T} c _.
Arguments element_node_indices {T} c _.
Arguments elementClass_node_per_element {T} c _.
Arguments num_dimensions {T} c _.
Arguments interpolate_to_nodes {T} c _ _ _.
Arguments get_vtk_cell_type {T} c _ _.
Arguments add_zero_z_coordinate {T} c _.
Arguments path_parent {T} c _.
Arguments path_join {T} c _ _.

(** The state a run threads: the module-level [args] and the events so far. *)
Record world (T : Type) : Type := mkWorld {
  g_args : Namespace;
  trace : list (event T)
}.

Arguments mkWorld {T} g_args trace.
Arguments g_args {T} w.
Arguments trace {T} w.

Definition M (T A : Type) : Type := world T -> (exn + A) * world T.

Definition mret {T A : Type} (a : A) : M T A := fun w => (inr a, w).

Definition mbind {T A B : Type} (c : M T A) (k : A -> M T B) : M T B :=
  fun w =>
    match c w with
    | (inl e, w') => (inl e, w')
    | (inr a, w') => k a w'
    end.

Declare Scope driver_scope.
Delimit Scope driver_scope with driver.
Notation "x <- c ;; k" := (mbind c (fun x => k))
  (at level 61, c at next level, right associativity) : driver_scope.
Notation "c ;; k" := (mbind c (fun _ => k))
  (at level 61, right associativity) : driver_scope.

Definition emit {T : Type} (e : event T) : M T unit :=
  fun w => (inr tt, {| g_args := g_args w; trace := trace w ++ [e] |}).

Definition get_args {T : Type} : M T Namespace := fun w => (inr (g_args w), w).

Definition put_args {T : Type} (a : Namespace) : M T unit :=
  fun w => (inr tt, {| g_args := a; trace := trace w |}).

Definition logger_info {T : Type} (msg : string) : M T unit := emit (Log msg).

Definition time_time {T : Type} : M T unit := emit Clock.

(** [a[start::step]] *)
Fixpoint stride_from {X : Type} (skip step : nat) (l : list X) : list X :=
  match l with
  | [] => []
  | x :: l' =>
      match skip with
      | O => x :: stride_from (Nat.pred step) step l'
      | S k => stride_from k step l'
      end
  end.

Definition stride {X : Type} (start step : nat) (l : list X) : list X :=
  stride_from start step l.

(** [d[key]] on a dict that holds [key]. *)
Fixpoint dict_get {T : Type} (key : string) (d : dict T) : tensor1 T :=
  match d with
  | [] => []
  | (k, v) :: d' => if String.eqb k key then v else dict_get key d'
  end.

(** The fields [post_processing] derives in its [if num_dimensions == 2] /
    [else] block. *)
Record fields (T : Type) : Type := mkFields {
  node_coords_3d : tensor2 T;
  disp_dict : dict T;
  strain_components : dict T;
  stress_components : dict T;
  von_mises_stress : tensor1 T
}.

Arguments mkFields {T} _ _ _ _ _.
Arguments node_coords_3d {T} f.
Arguments disp_dict {T} f.
Arguments strain_components {T} f.
Arguments stress_components {T} f.
Arguments von_mises_stress {T} f.

Local Open Scope string_scope.

Section PostProcessing.

Context {T : Type} {Ar : Arith T}.

(** The von Mises combinations of [post_processing]. *)
Definition von_mises_2d (stress11 stress22 stress12 : tensor1 T) : tensor1 T :=
  t_sqrt (t_add (t_add (t_sub (t_sq stress11) (t_mul stress11 stress22))
                       (t_sq stress22))
                (t_scale 3 (t_sq stress12))).

Definition von_mises_3d
    (stress11 stress22 stress33 stress12 stress13 stress23 : tensor1 T) : tensor1 T :=
  t_sqrt (t_add
            (t_scale half
               (t_add (t_add (t_sq (t_sub stress11 stress22))
                             (t_sq (t_sub stress22 stress33)))
                      (t_sq (t_sub stress33 stress11))))
            (t_scale 3
               (t_add (t_add (t_sq stress12) (t_sq stress13)) (t_sq stress23)))).

Definition derive_fields (add_zero_z : tensor2 T -> tensor2 T) (num_dims : nat)
    (coords : tensor2 T) (displacements : tensor1 T)
    (node_strains node_stresses : tensor2 T) : fields T :=
  if Nat.eqb num_dims 2 then
    let strain := [ ("strain11", slice1 (s_lit 0) 0 node_strains);
                    ("strain22", slice1 (s_lit 0) 1 node_strains);
                    ("strain12", slice1 (s_lit 0) 2 node_strains) ] in
    let stress := [ ("stress11", slice1 (s_lit 0) 0 node_stresses);
                    ("stress22", slice1 (s_lit 0) 1 node_stresses);
                    ("stress12", slice1 (s_lit 0) 2 node_stresses) ] in
    let stress11 := dict_get "stress11" stress in
    let stress22 := dict_get "stress22" stress in
    let stress12 := dict_get "stress12" stress in
    {| node_coords_3d := add_zero_z coords;
       disp_dict := [ ("disp_x", stride 0 2 displacements);
                      ("disp_y", stride 1 2 displacements) ];
       strain_components := strain;
       stress_components := stress;
       von_mises_stress := von_mises_2d stress11 stress22 stress12 |}
  else
    let strain := [ ("strain11", slice1 (s_lit 0) 0 node_strains);
                    ("strain22", slice1 (s_lit 0) 1 node_strains);
                    ("strain33", slice1 (s_lit 0) 2 node_strains);
                    ("strain23", slice1 (s_lit 0) 3 node_strains);
                    ("strain13", slice1 (s_lit 0) 4 node_strains);
                    ("strain12", slice1 (s_lit 0) 5 node_strains) ] in
    let stress := [ ("stress11", slice1 (s_lit 0) 0 node_stresses);
                    ("stress22", slice1 (s_lit 0) 1 node_stresses);
                    ("stress33", slice1 (s_lit 0) 2 node_stresses);
                    ("stress23", slice1 (s_lit 0) 3 node_stresses);
                    ("stress13", slice1 (s_lit 0) 4 node_stresses);
                    ("stress12", slice1 (s_lit 0) 5 node_stresses) ] in
    let stress11 := dict_get "stress11" stress in
    let stress22 := dict_get "stress22" stress in
    let stress33 := dict_get "stress33" stress in
    let stress12 := dict_get "stress12" stress in
    let stress13 := dict_get "stress13" stress in
    let stress23 := dict_get "stress23" stress in
    {| node_coords_3d := coords;
       disp_dict := [ ("disp_x", stride 0 3 displacements);
                      ("disp_y", stride 1 3 displacements);
                      ("disp_z", stride 2 3 displacements) ];
       strain_components := strain;
       stress_components := stress;
       von_mises_stress :=
         von_mises_3d stress11 stress22 stress33 stress12 stress13 stress23 |}.

End PostProcessing.

Section Driver.

Context {T : Type} {Ar : Arith T}.

Variable F : Collaborators T.

Local Open Scope driver_scope.

(** A method call on the model object: it is entered, runs, and either
    raises or leaves with the object updated. *)
Definition invoke (c : call) (model : Model F) : M T (Model F) :=
  emit (Enter c) ;;
  match exec F c model with
  | inl e => fun w => (inl e, w)
  | inr model' => emit (Leave c) ;; mret model'
  end.

Definition initialize_model (args : Namespace) : M T (Model F) :=
  logger_info "Initializing the Finite Element Model..." ;;
  let model := FiniteElementModel F in
  logger_info ("Reading geometry data from " ++ geometry_path args ++ "...") ;;
  model <- invoke (read_geom_from_yaml (geometry_path args)) model ;;
  logger_info ("Reading material data from " ++ material_path args ++ "...") ;;
  model <- invoke (read_material_from_yaml (material_path args)) model ;;
  logger_info ("Reading loading data from " ++ loading_path args ++ "...") ;;
  model <- invoke (read_loading_from_yaml (loading_path args)) model ;;
  model <- invoke (to_device (device args)) model ;;
  mret model.

(** [args] here is the module-level name, not a parameter.  The last log
    line is the f-string with the elapsed time left unformatted. *)
Definition run_analysis (model : Model F) : M T (Model F) :=
  time_time ;;
  logger_info "Computing the element stiffness..." ;;
  model <- invoke init_element_class model ;;
  model <- invoke generate_material_dict model ;;
  model <- invoke compute_mass_matrix model ;;
  args <- get_args ;;
  put_args (set_incompatible_mode_element true args) ;;
  args <- get_args ;;
  model <- (if Bool.eqb (incompatible_mode_element args) true
            then invoke compute_element_stiffness_with_shear_locking model
            else invoke compute_element_stiffness model) ;;
  logger_info "Assembling the element stiffness..." ;;
  model <- invoke assemble_global_stiffness model ;;
  model <- invoke assemble_global_mass_matrix model ;;
  model <- invoke assemble_global_load_vector model ;;
  logger_info "Solving..." ;;
  model <- invoke solve_system_modal model ;;
  time_time ;;
  logger_info "Finite Element Model execution completed in {total_time:.2f} seconds." ;;
  mret model.

Definition post_processing (model : Model F) : M T (Model F) :=
  logger_info "Post-processing..." ;;
  model <- invoke compute_GP_strains_stresses model ;;
  let node_strains :=
    interpolate_to_nodes F (gauss_point_coordinates F model)
      (gauss_point_strains F model) (node_coords F model) in
  let node_stresses :=
    interpolate_to_nodes F (gauss_point_coordinates F model)
      (gauss_point_stresses F model) (node_coords F model) in
  let model_cell_types :=
    get_vtk_cell_type F (elementClass_node_per_element F model)
      (num_dimensions F model) in
  let fs :=
    derive_fields (add_zero_z_coordinate F) (num_dimensions F model)
      (node_coords F model) (global_displacements F model)
      node_strains node_stresses in
  let point_data :=
    (stress_components fs ++ strain_components fs ++ disp_dict fs
       ++ [("von_mises_stress", von_mises_stress fs)])%list in
  args <- get_args ;;
  let parent_folder := path_parent F (geometry_path args) in
  logger_info "Writing VTK files..." ;;
  emit (WriteVtk (node_coords_3d fs) (element_node_indices F model)
          (repeat model_cell_types (List.length (element_node_indices F model)))
          point_data (path_join F parent_folder "results.vtk")) ;;
  mret model.

Definition main (args : Namespace) : M T unit :=
  model <- initialize_model args ;;
  model <- run_analysis model ;;
  model <- post_processing model ;;
  mret tt.

(** [if __name__ == "__main__"]: [args = parser.parse_args()] binds the
    module-level [args], then [main(args)] runs. *)
Definition script (parsed : Namespace) : (exn + unit) * world T :=
  main parsed {| g_args := parsed; trace := [] |}.

End Driver.

Local Close Scope string_scope.

(** ** Vocabulary of the specification *)

Section Vocabulary.

Context {T : Type} {Ar : Arith T}.

(** Entry [(i, j)] of a rank-2 tensor. *)
Definition coord (e : tensor2 T) (i j : nat) : T := nth j (nth i e []) (s_lit 0).

(** The signed area as the code computes it, each operation in the
    arithmetic of the tensor. *)
Definition computed_area (x1 y1 x2 y2 x3 y3 : T) : T :=
  s_mul (s_lit half)
    (s_add (s_add (s_mul x1 (s_sub y2 y3)) (s_mul x2 (s_sub y3 y1)))
           (s_mul x3 (s_sub y1 y2))).

(** The strain-displacement matrix over a given area [A], in the arithmetic
    of the tensor. *)
Definition B_entries (A x1 y1 x2 y2 x3 y3 : T) : tensor2 T :=
  let b1 := s_div (s_sub y2 y3) (s_mul (s_lit 2) A) in
  let b2 := s_div (s_sub y3 y1) (s_mul (s_lit 2) A) in
  let b3 := s_div (s_sub y1 y2) (s_mul (s_lit 2) A) in
  let c1 := s_div (s_sub x3 x2) (s_mul (s_lit 2) A) in
  let c2 := s_div (s_sub x1 x3) (s_mul (s_lit 2) A) in
  let c3 := s_div (s_sub x2 x1) (s_mul (s_lit 2) A) in
  [ [b1; s_lit 0; b2; s_lit 0; b3; s_lit 0];
    [s_lit 0; c1; s_lit 0; c2; s_lit 0; c3];
    [c1; b1; c2; b2; c3; b3] ].

(** The degeneracy test of the code on a computed area. *)
Definition degenerate (A : T) : bool :=
  s_ltb (s_abs A) (s_lit TriangularElement.area_tol).

Definition area_of (e : tensor2 T) : T :=
  computed_area (coord e 0 0) (coord e 0 1) (coord e 1 0) (coord e 1 1)
                (coord e 2 0) (coord e 2 1).

Definition B_of (e : tensor2 T) : tensor2 T :=
  B_entries (area_of e) (coord e 0 0) (coord e 0 1) (coord e 1 0) (coord e 1 1)
            (coord e 2 0) (coord e 2 1).

(** The conversion [dtype=torch.float] of a whole matrix. *)
Definition as_float (B : tensor2 T) : tensor2 T := map (map s_float) B.

(** [torch.sum] of a rank-1 tensor and the matrix-vector product [B @ d]. *)
Definition t_sum (a : tensor1 T) : T := fold_right s_add (s_lit 0) a.
Definition dot (a b : tensor1 T) : T := t_sum (t_mul a b).
Definition matvec (B : tensor2 T) (d : tensor1 T) : tensor1 T :=
  map (fun row => dot row d) B.

(** Shape [(3, 6)]. *)
Definition is_3x6 (B : tensor2 T) : Prop :=
  List.length B = 3%nat /\ Forall (fun row => List.length row = 6%nat) B.

(** The array expressions of [post_processing], node by node, on a
    uniaxial field with the other components [z]. *)
Definition uniaxial_2d (z s : T) : T :=
  s_sqrt (s_add (s_add (s_sub (s_mul s s) (s_mul s z)) (s_mul z z))
                (s_mul (s_lit 3) (s_mul z z))).

Definition uniaxial_3d (z s : T) : T :=
  s_sqrt (s_add
            (s_mul (s_lit half)
               (s_add (s_add (s_mul (s_sub s z) (s_sub s z))
                             (s_mul (s_sub z z) (s_sub z z)))
                      (s_mul (s_sub z s) (s_sub z s))))
            (s_mul (s_lit 3) (s_add (s_add (s_mul z z) (s_mul z z)) (s_mul z z)))).

End Vocabulary.

(** The signed area of the triangle [(x1,y1), (x2,y2), (x3,y3)] and the
    strain-displacement matrix of the constant-strain triangle, over the
    real numbers. *)
Definition signed_area (x1 y1 x2 y2 x3 y3 : R) : R :=
  1 / 2 * (x1 * (y2 - y3) + x2 * (y3 - y1) + x3 * (y1 - y2)).

Definition B_formula (x1 y1 x2 y2 x3 y3 : R) : tensor2 R :=
  let A := signed_area x1 y1 x2 y2 x3 y3 in
  let b1 := (y2 - y3) / (2 * A) in
  let b2 := (y3 - y1) / (2 * A) in
  let b3 := (y1 - y2) / (2 * A) in
  let c1 := (x3 - x2) / (2 * A) in
  let c2 := (x1 - x3) / (2 * A) in
  let c3 := (x2 - x1) / (2 * A) in
  [ [b1; 0; b2; 0; b3; 0];
    [0; c1; 0; c2; 0; c3];
    [c1; b1; c2; b2; c3; b3] ].

(** Floats written as the Python numbers they come from, and the signed
    area of a triangle of floats as a rational number, without rounding. *)
Definition f32 (q : Q) : spec_float := s_lit (Arith := IEEE float32) q.
Definition f64 (q : Q) : spec_float := s_lit (Arith := IEEE float64) q.

Definition exact_area (e : tensor2 spec_float) : Q :=
  let c (i j : nat) := SF2Q (nth j (nth i e []) (S754_zero false)) in
  let x1 := c 0%nat 0%nat in let y1 := c 0%nat 1%nat in
  let x2 := c 1%nat 0%nat in let y2 := c 1%nat 1%nat in
  let x3 := c 2%nat 0%nat in let y3 := c 2%nat 1%nat in
  ((1 # 2) * (x1 * (y2 - y3) + x2 * (y3 - y1) + x3 * (y1 - y2)))%Q.

(** Floats with the sign bit clear, or NaN. *)
Definition sign_clear (x : spec_float) : Prop :=
  match x with
  | S754_zero s | S754_infinity s | S754_finite s _ _ => s = false
  | S754_nan => True
  end.

Definition not_infinite (x : spec_float) : Prop :=
  match x with
  | S754_infinity _ => False
  | _ => True
  end.

(** The method calls of one run of the script, in program order. *)
Definition calls_in_order (a : Namespace) : list call :=
  [ read_geom_from_yaml (geometry_path a);
    read_material_from_yaml (material_path a);
    read_loading_from_yaml (loading_path a);
    to_device (device a);
    init_element_class;
    generate_material_dict;
    compute_mass_matrix;
    compute_element_stiffness_with_shear_locking;
    assemble_global_stiffness;
    assemble_global_mass_matrix;
    assemble_global_load_vector;
    solve_system_modal;
    compute_GP_strains_stresses ].

(** The calls of [run_analysis] alone, and those before its branch. *)
Definition analysis_calls : list call :=
  [ init_element_class;
    generate_material_dict;
    compute_mass_matrix;
    compute_element_stiffness_with_shear_locking;
    assemble_global_stiffness;
    assemble_global_mass_matrix;
    assemble_global_load_vector;
    solve_system_modal ].

Definition calls_before_branch : list call :=
  [ init_element_class; generate_material_dict; compute_mass_matrix ].

(** Each call entered and left before the next one is entered. *)
Definition bracketed {T : Type} (cs : list call) : list (event T) :=
  flat_map (fun c => [Enter c; Leave c]) cs.

Definition is_stage_event {T : Type} (e : event T) : bool :=
  match e with
  | Enter _ | Leave _ => true
  | _ => false
  end.

Definition stage_events {T : Type} (tr : list (event T)) : list (event T) :=
  filter is_stage_event tr.

Definition with_flag {T : Type} (b : bool) (w : world T) : world T :=
  {| g_args := set_incompatible_mode_element b (g_args w); trace := trace w |}.

(** The stages in sequence, each on the model object the one before left. *)
Fixpoint run_calls {T : Type} (F : Collaborators T) (cs : list call) (m : Model F)
  : exn + Model F :=
  match cs with
  | [] => inr m
  | c :: cs' =>
      match exec F c m with
      | inl e => inl e
      | inr m' => run_calls F cs' m'
      end
  end.

(** A model whose methods all succeed, and one whose solver fails. *)
Definition unit_collaborators : Collaborators R :=
  {| Model := unit;
     FiniteElementModel := tt;
     exec := fun _ m => inr m;
     gauss_point_coordinates := fun _ => [];
     gauss_point_strains := fun _ => [];
     gauss_point_stresses := fun _ => [];
     node_coords := fun _ => [];
     global_displacements := fun _ => [];
     element_node_indices := fun _ => [];
     elementClass_node_per_element := fun _ => 3%nat;
     num_dimensions := fun _ => 2%nat;
     interpolate_to_nodes := fun _ attribute _ => attribute;
     get_vtk_cell_type := fun _ _ => 5%nat;
     add_zero_z_coordinate := map (fun p => (p ++ [0])%list);
     path_parent := fun p => p;
     path_join := fun p q => String.append p q |}.

Definition singular_collaborators : Collaborators R :=
  {| Model := unit;
     FiniteElementModel := tt;
     exec := fun c m =>
               match c with
               | solve_system_modal => inl (OtherError "RuntimeError" "singular matrix")
               | _ => inr m
               end;
     gauss_point_coordinates := fun _ => [];
     gauss_point_strains := fun _ => [];
     gauss_point_stresses := fun _ => [];
     node_coords := fun _ => [];
     global_displacements := fun _ => [];
     element_node_indices := fun _ => [];
     elementClass_node_per_element := fun _ => 3%nat;
     num_dimensions := fun _ => 2%nat;
     interpolate_to_nodes := fun _ attribute _ => attribute;
     get_vtk_cell_type := fun _ _ => 5%nat;
     add_zero_z_coordinate := map (fun p => (p ++ [0])%list);
     path_parent := fun p => p;
     path_join := fun p q => String.append p q |}.

Definition sample_args : Namespace :=
  {| device := "cpu";
     geometry_path := "geometry.yaml";
     material_path := "material.yaml";
     loading_path := "loading.yaml";
     incompatible_mode_element := false |}.

(** Triangles of float32 and float64 nodes used below. *)
Definition unit_triangle32 : tensor2 spec_float :=
  [[f32 0; f32 0]; [f32 1; f32 0]; [f32 0; f32 1]].

Definition clockwise_triangle32 : tensor2 spec_float :=
  [[f32 0; f32 0]; [f32 0; f32 1]; [f32 1; f32 0]].

(** Exact area 1/2, computed area 0. *)
Definition thin_triangle32 : tensor2 spec_float :=
  [[f32 0; f32 0]; [f32 4097; f32 4098]; [f32 4096; f32 4097]].

(** The same nodes clockwise: exact area -1/2, computed area 0. *)
Definition thin_clockwise32 : tensor2 spec_float :=
  [[f32 0; f32 0]; [f32 4096; f32 4097]; [f32 4097; f32 4098]].

(** Collinear nodes: exact area 0, computed area 1/2. *)
Definition collinear_triangle32 : tensor2 spec_float :=
  [[f32 5399; f32 1010]; [f32 5527; f32 2514]; [f32 5731; f32 4911]].

(** A float64 triangle whose B-matrix is not representable in float32. *)
Definition fine_triangle64 : tensor2 spec_float :=
  [[f64 0; f64 0]; [f64 1; f64 (1 # 1073741824)]; [f64 0; f64 1]].

Definition skew_triangle32 : tensor2 spec_float :=
  [[f32 0; f32 0]; [f32 2; f32 1]; [f32 (-1); f32 3]].

(** ** Elementwise operations *)

Lemma Rltb_true (x y : R) : Rltb x y = true <-> x < y.
Proof.
  unfold Rltb. destruct (Rlt_dec x y); split; intros; try easy.
Qed.

Lemma Rltb_false (x y : R) : Rltb x y = false <-> y <= x.
Proof.
  unfold Rltb. destruct (Rlt_dec x y); split; intros; try easy; lra.
Qed.

(** The Python numbers of the source, as real numbers. *)
Lemma Q2R_half : Q2R half = 1 / 2.
Proof. unfold Q2R, half. cbn. lra. Qed.

Lemma Q2R_tol : Q2R tol = 1e-10.
Proof. unfold Q2R, tol. cbn. lra. Qed.

Lemma Q2R_0 : Q2R 0 = 0.
Proof. unfold Q2R. cbn. lra. Qed.

Lemma Q2R_1 : Q2R 1 = 1.
Proof. unfold Q2R. cbn. lra. Qed.

Lemma Q2R_2 : Q2R 2 = 2.
Proof. unfold Q2R. cbn. lra. Qed.

Lemma Q2R_3 : Q2R 3 = 3.
Proof. unfold Q2R. cbn. lra. Qed.

Lemma map2_map {W X Y Z : Type} (f : X -> Y -> Z) (g : W -> X) (h : W -> Y) (l : list W) :
  map2 f (map g l) (map h l) = map (fun w => f (g w) (h w)) l.
Proof.
  induction l as [|w l IH]; simpl; [reflexivity | now rewrite IH].
Qed.

Lemma existsb_map_pred {X Y : Type} (p : Y -> bool) (g : X -> Y) (l : list X) :
  existsb p (map g l) = existsb (fun x => p (g x)) l.
Proof.
  induction l as [|x l IH]; simpl; [reflexivity | now rewrite IH].
Qed.

Lemma slice1_map {X Y : Type} (d : Y) (j : nat) (g : X -> list Y) (l : list X) :
  slice1 d j (map g l) = map (fun x => nth j (g x) d) l.
Proof. unfold slice1. now rewrite map_map. Qed.

Lemma stack_dim1_map {W X : Type} (d : X) (f0 : W -> X) (fs : list (W -> X)) (l : list W) :
  stack_dim1 d (map (fun f => map f l) (f0 :: fs))
  = map (fun w => map (fun f => f w) (f0 :: fs)) l.
Proof.
  unfold stack_dim1. cbn [map]. rewrite length_map.
  change (map f0 l :: map (fun f => map f l) fs)
    with (map (fun f => map f l) (f0 :: fs)).
  generalize (f0 :: fs) as gs. intros gs.
  induction l as [|w l IH]; [reflexivity|].
  cbn [List.length seq map]. f_equal.
  - rewrite map_map. reflexivity.
  - rewrite <- seq_shift, map_map, <- IH.
    apply map_ext. intros k. rewrite !map_map. reflexivity.
Qed.

Lemma stack_dim1_map3 {W X : Type} (d : X) (f1 f2 f3 : W -> X) (l : list W) :
  stack_dim1 d [map f1 l; map f2 l; map f3 l] = map (fun w => [f1 w; f2 w; f3 w]) l.
Proof. exact (stack_dim1_map d f1 [f2; f3] l). Qed.

Lemma stack_dim1_map6 {W X : Type} (d : X) (f1 f2 f3 f4 f5 f6 : W -> X) (l : list W) :
  stack_dim1 d [map f1 l; map f2 l; map f3 l; map f4 l; map f5 l; map f6 l]
  = map (fun w => [f1 w; f2 w; f3 w; f4 w; f5 w; f6 w]) l.
Proof. exact (stack_dim1_map d f1 [f2; f3; f4; f5; f6] l). Qed.

Lemma Forall2_map_r {X Y : Type} (P : X -> Y -> Prop) (f : X -> Y) (l : list X) :
  Forall (fun x => P x (f x)) l -> Forall2 P l (map f l).
Proof.
  induction 1; simpl; constructor; assumption.
Qed.

Lemma is_3x2_inv {T : Type} (e : tensor2 T) :
  TriangularElement.is_3x2 e = true ->
  exists x1 y1 x2 y2 x3 y3, e = [[x1; y1]; [x2; y2]; [x3; y3]].
Proof.
  destruct e as [|[|x1 [|y1 [|]]] [|[|x2 [|y2 [|]]] [|[|x3 [|y3 [|]]] [|]]]];
    simpl; try discriminate.
  intros _. now exists x1, y1, x2, y2, x3, y3.
Qed.

(** ** The two B-matrix functions, element by element *)

Section ElementLemmas.

Context {T : Type} {Ar : Arith T}.

Lemma slice1_slice1 (i j : nat) (t : tensor3 T) :
  slice1 (s_lit 0) j (slice1 [] i t) = map (fun e => coord e i j) t.
Proof. unfold slice1, coord. now rewrite map_map. Qed.

Lemma vectorized_unfold (t : tensor3 T) :
  TriangularElement.compute_B_matrix_vectorized t =
  if negb (forallb TriangularElement.is_3x2 t) then
    raise (ValueError "node_coords shape should be (num_elements, 3, 2) for multiple triangles")
  else if existsb (fun e => degenerate (area_of e)) t then
    raise (ValueError "At least one set of node coordinates result in a degenerate triangle with almost zero area.")
  else ret (map B_of t).
Proof.
  unfold TriangularElement.compute_B_matrix_vectorized. cbv zeta.
  destruct (negb (forallb TriangularElement.is_3x2 t)); [reflexivity|].
  rewrite !slice1_slice1.
  unfold t_sub, t_mul, t_add, t_div, t_scale, t_abs, t_lt, zeros_like, any.
  repeat (rewrite !map2_map || rewrite !map_map).
  rewrite existsb_map_pred.
  cbv delta [tensor1 tensor2 tensor3].
  rewrite !stack_dim1_map6, stack_dim1_map3.
  reflexivity.
Qed.

Lemma single_unfold (x1 y1 x2 y2 x3 y3 : T) :
  TriangularElement.compute_B_matrix [[x1; y1]; [x2; y2]; [x3; y3]] =
  if degenerate (computed_area x1 y1 x2 y2 x3 y3) then
    raise (ValueError "The provided node coordinates result in a degenerate triangle with almost zero area.")
  else ret (as_float (B_entries (computed_area x1 y1 x2 y2 x3 y3) x1 y1 x2 y2 x3 y3)).
Proof. reflexivity. Qed.

Lemma single_returns (x1 y1 x2 y2 x3 y3 : T) :
  degenerate (computed_area x1 y1 x2 y2 x3 y3) = false ->
  TriangularElement.compute_B_matrix [[x1; y1]; [x2; y2]; [x3; y3]]
  = inr (as_float (B_entries (computed_area x1 y1 x2 y2 x3 y3) x1 y1 x2 y2 x3 y3)).
Proof. intros H. rewrite single_unfold. now rewrite H. Qed.

Lemma single_raises (x1 y1 x2 y2 x3 y3 : T) :
  degenerate (computed_area x1 y1 x2 y2 x3 y3) = true ->
  TriangularElement.compute_B_matrix [[x1; y1]; [x2; y2]; [x3; y3]]
  = inl (ValueError "The provided node coordinates result in a degenerate triangle with almost zero area.").
Proof. intros H. rewrite single_unfold. now rewrite H. Qed.

Lemma single_B_of (e : tensor2 T) :
  TriangularElement.is_3x2 e = true ->
  degenerate (area_of e) = false ->
  TriangularElement.compute_B_matrix e = inr (as_float (B_of e)).
Proof.
  intros Hs Ha.
  destruct (is_3x2_inv e Hs) as (x1 & y1 & x2 & y2 & x3 & y3 & ->).
  now apply single_returns.
Qed.

Lemma vectorized_inv (batch : tensor3 T) (Bs : tensor3 T) :
  TriangularElement.compute_B_matrix_vectorized batch = inr Bs ->
  forallb TriangularElement.is_3x2 batch = true
  /\ existsb (fun e => degenerate (area_of e)) batch = false
  /\ Bs = map B_of batch.
Proof.
  rewrite vectorized_unfold. intros H.
  destruct (forallb TriangularElement.is_3x2 batch); [|discriminate H].
  cbn [negb] in H.
  destruct (existsb _ batch); [discriminate H|].
  injection H as <-. repeat split.
Qed.

Lemma vectorized_intro (batch : tensor3 T) :
  forallb TriangularElement.is_3x2 batch = true ->
  existsb (fun e => degenerate (area_of e)) batch = false ->
  TriangularElement.compute_B_matrix_vectorized batch = inr (map B_of batch).
Proof.
  intros Hs Ha. rewrite vectorized_unfold, Hs. cbn [negb]. now rewrite Ha.
Qed.

Lemma B_of_is_3x6 (e : tensor2 T) : is_3x6 (B_of e).
Proof. split; [reflexivity | repeat constructor]. Qed.

Lemma vectorized_on_good_batch (batch : tensor3 T) :
  Forall (fun e => TriangularElement.is_3x2 e = true
                   /\ degenerate (area_of e) = false) batch ->
  TriangularElement.compute_B_matrix_vectorized batch = inr (map B_of batch)
  /\ Forall2 (fun e B => TriangularElement.compute_B_matrix e = inr (as_float B))
       batch (map B_of batch).
Proof.
  intros H. split.
  - apply vectorized_intro.
    + apply forallb_forall. intros e He.
      rewrite Forall_forall in H. now apply H.
    + induction H as [|e l [_ He] _ IH]; [reflexivity|].
      cbn [existsb]. now rewrite IH, He.
  - apply Forall2_map_r. eapply Forall_impl; [|exact H].
    intros e [Hs Ha]. now apply single_B_of.
Qed.

End ElementLemmas.

(** Over the reals the code's expressions are the formulas of the
    specification. *)
Lemma real_computed_area (x1 y1 x2 y2 x3 y3 : R) :
  computed_area x1 y1 x2 y2 x3 y3 = signed_area x1 y1 x2 y2 x3 y3.
Proof. unfold computed_area, signed_area. cbn. now rewrite Q2R_half. Qed.

Lemma real_degenerate (A : R) :
  degenerate A = Rltb (Rabs A) 1e-10.
Proof. unfold degenerate, TriangularElement.area_tol. cbn. now rewrite Q2R_tol. Qed.

Lemma real_B (x1 y1 x2 y2 x3 y3 : R) :
  as_float (B_entries (computed_area x1 y1 x2 y2 x3 y3) x1 y1 x2 y2 x3 y3)
  = B_formula x1 y1 x2 y2 x3 y3.
Proof.
  rewrite real_computed_area. unfold as_float, B_entries, B_formula.
  cbn. now rewrite Q2R_0, Q2R_2.
Qed.

Lemma real_single_returns (x1 y1 x2 y2 x3 y3 : R) :
  1e-10 <= Rabs (signed_area x1 y1 x2 y2 x3 y3) ->
  TriangularElement.compute_B_matrix [[x1; y1]; [x2; y2]; [x3; y3]]
  = inr (B_formula x1 y1 x2 y2 x3 y3).
Proof.
  intros H. rewrite single_returns, real_B; [reflexivity|].
  rewrite real_degenerate, real_computed_area. now apply Rltb_false.
Qed.

Lemma area_nonzero (x1 y1 x2 y2 x3 y3 : R) :
  1e-10 <= Rabs (signed_area x1 y1 x2 y2 x3 y3) ->
  x1 * (y2 - y3) + x2 * (y3 - y1) + x3 * (y1 - y2) <> 0.
Proof.
  intros H E. unfold signed_area in H. rewrite E in H.
  replace (1 / 2 * 0) with 0 in H by lra. rewrite Rabs_R0 in H. lra.
Qed.

(** Float comparison: a float at most [- c] is not below [c] in magnitude. *)
Lemma SFleb_opp_not_ltb_abs (a c : spec_float) :
  SFleb a (SFopp c) = true -> SFltb (SFabs a) c = false.
Proof.
  unfold SFleb, SFltb.
  destruct a as [sa|sa| |sa ma ea], c as [sc|sc| |sc mc ec]; cbn;
    try destruct sa; try destruct sc; cbn; try discriminate; try reflexivity;
    destruct (Z.compare ea ec); try discriminate; try reflexivity;
    destruct (Pos.compare_cont Eq ma mc); cbn; try discriminate; reflexivity.
Qed.

(** ** The B-matrix of one triangle *)

(** C1. If the degeneracy test does not fire on the area as the code
    computes it (every operation rounded in the dtype of the tensor), the
    result is the matrix [[b1,0,b2,0,b3,0],[0,c1,0,c2,0,c3],
    [c1,b1,c2,b2,c3,b3]] with [bi], [ci] the coordinate differences over
    twice that area, computed in the same arithmetic and converted to
    float32.  Over the reals this is the matrix of the claim for every
    triangle with [|A| >= 1e-10]. *)
Theorem compute_B_matrix_formula :
  (forall (T : Type) (Ar : Arith T) (x1 y1 x2 y2 x3 y3 : T),
      let A := s_mul (s_lit (1 # 2))
                 (s_add (s_add (s_mul x1 (s_sub y2 y3)) (s_mul x2 (s_sub y3 y1)))
                        (s_mul x3 (s_sub y1 y2))) in
      s_ltb (s_abs A) (s_lit (1 # 10000000000)) = false ->
      TriangularElement.compute_B_matrix [[x1; y1]; [x2; y2]; [x3; y3]]
      = inr (map (map s_float)
               [ [s_div (s_sub y2 y3) (s_mul (s_lit 2) A); s_lit 0;
                  s_div (s_sub y3 y1) (s_mul (s_lit 2) A); s_lit 0;
                  s_div (s_sub y1 y2) (s_mul (s_lit 2) A); s_lit 0];
                 [s_lit 0; s_div (s_sub x3 x2) (s_mul (s_lit 2) A);
                  s_lit 0; s_div (s_sub x1 x3) (s_mul (s_lit 2) A);
                  s_lit 0; s_div (s_sub x2 x1) (s_mul (s_lit 2) A)];
                 [s_div (s_sub x3 x2) (s_mul (s_lit 2) A);
                  s_div (s_sub y2 y3) (s_mul (s_lit 2) A);
                  s_div (s_sub x1 x3) (s_mul (s_lit 2) A);
                  s_div (s_sub y3 y1) (s_mul (s_lit 2) A);
                  s_div (s_sub x2 x1) (s_mul (s_lit 2) A);
                  s_div (s_sub y1 y2) (s_mul (s_lit 2) A)] ]))
  /\ (forall x1 y1 x2 y2 x3 y3 : R,
         let A := 1 / 2 * (x1 * (y2 - y3) + x2 * (y3 - y1) + x3 * (y1 - y2)) in
         Rabs A >= 1e-10 ->
         TriangularElement.compute_B_matrix [[x1; y1]; [x2; y2]; [x3; y3]]
         = inr [ [(y2 - y3) / (2 * A); 0; (y3 - y1) / (2 * A); 0; (y1 - y2) / (2 * A); 0];
                 [0; (x3 - x2) / (2 * A); 0; (x1 - x3) / (2 * A); 0; (x2 - x1) / (2 * A)];
                 [(x3 - x2) / (2 * A); (y2 - y3) / (2 * A);
                  (x1 - x3) / (2 * A); (y3 - y1) / (2 * A);
                  (x2 - x1) / (2 * A); (y1 - y2) / (2 * A)] ]).
Proof.
  split.
  - intros T Ar x1 y1 x2 y2 x3 y3 A H.
    exact (single_returns x1 y1 x2 y2 x3 y3 H).
  - intros x1 y1 x2 y2 x3 y3 A H. apply Rge_le in H.
    exact (real_single_returns x1 y1 x2 y2 x3 y3 H).
Qed.

Lemma compute_B_matrix_formula_witness :
  TriangularElement.compute_B_matrix (Ar := IEEE float32) unit_triangle32
  = inr [ [f32 (-1); f32 0; f32 1; f32 0; f32 0; f32 0];
          [f32 0; f32 (-1); f32 0; f32 0; f32 0; f32 1];
          [f32 (-1); f32 (-1); f32 0; f32 1; f32 1; f32 0] ].
Proof.
  etransitivity.
  - apply (proj1 compute_B_matrix_formula spec_float (IEEE float32)
             (f32 0) (f32 0) (f32 1) (f32 0) (f32 0) (f32 1)).
    vm_compute. reflexivity.
  - vm_compute. reflexivity.
Defined.

(** The claim of C1 as stated fails: this float32 triangle has area 1/2,
    the code computes area 0 and rejects it. *)
Lemma compute_B_matrix_formula_counterexample :
  (1 # 10000000000 <= Qabs (exact_area thin_triangle32))%Q
  /\ TriangularElement.compute_B_matrix (Ar := IEEE float32) thin_triangle32
     = inl (ValueError "The provided node coordinates result in a degenerate triangle with almost zero area.")
  /\ ~ returns (TriangularElement.compute_B_matrix (Ar := IEEE float32) thin_triangle32).
Proof.
  split; [vm_compute; discriminate|].
  assert (E : TriangularElement.compute_B_matrix (Ar := IEEE float32) thin_triangle32
              = inl (ValueError "The provided node coordinates result in a degenerate triangle with almost zero area."))
    by (vm_compute; reflexivity).
  split; [exact E|]. rewrite E. intros [B HB]. discriminate HB.
Qed.

(** C3. If the degeneracy test fires on the area as the code computes it,
    the triangle is rejected with a [ValueError]; no matrix is returned. *)
Theorem compute_B_matrix_degenerate
    (T : Type) (Ar : Arith T) (x1 y1 x2 y2 x3 y3 : T) :
  let A := s_mul (s_lit (1 # 2))
             (s_add (s_add (s_mul x1 (s_sub y2 y3)) (s_mul x2 (s_sub y3 y1)))
                    (s_mul x3 (s_sub y1 y2))) in
  s_ltb (s_abs A) (s_lit (1 # 10000000000)) = true ->
  raises (TriangularElement.compute_B_matrix [[x1; y1]; [x2; y2]; [x3; y3]])
  /\ ~ returns (TriangularElement.compute_B_matrix [[x1; y1]; [x2; y2]; [x3; y3]]).
Proof.
  intros A H. rewrite (single_raises x1 y1 x2 y2 x3 y3 H). split.
  - eexists. reflexivity.
  - intros [B HB]. discriminate HB.
Qed.

Lemma compute_B_matrix_degenerate_witness :
  raises (TriangularElement.compute_B_matrix (Ar := IEEE float32)
            [[f32 0; f32 0]; [f32 1; f32 1]; [f32 2; f32 2]]).
Proof.
  apply (compute_B_matrix_degenerate spec_float (IEEE float32)
           (f32 0) (f32 0) (f32 1) (f32 1) (f32 2) (f32 2)).
  vm_compute. reflexivity.
Defined.

(** The claim of C3 as stated fails: these float32 nodes are collinear
    (area 0), the code computes area 1/2 and returns a matrix. *)
Lemma compute_B_matrix_degenerate_counterexample :
  (Qabs (exact_area collinear_triangle32) < 1 # 10000000000)%Q
  /\ returns (TriangularElement.compute_B_matrix (Ar := IEEE float32) collinear_triangle32)
  /\ area_of (Ar := IEEE float32) collinear_triangle32 = f32 (1 # 2).
Proof.
  split; [vm_compute; reflexivity|]. split; [|vm_compute; reflexivity].
  eexists. vm_compute. reflexivity.
Qed.

(** C7. A triangle whose computed area is at most [-1e-10] (clockwise
    nodes) passes the degeneracy check, which looks at the magnitude only,
    and gets a B-matrix: for floats of either dtype with the comparison on
    the computed area, and over the reals as the claim states it. *)
Theorem compute_B_matrix_negative_area :
  (forall (d : dtype) (x1 y1 x2 y2 x3 y3 : spec_float),
      let A := computed_area (Ar := IEEE d) x1 y1 x2 y2 x3 y3 in
      SFleb A (SFopp (s_lit (Arith := IEEE d) (1 # 10000000000))) = true ->
      ~ raises (TriangularElement.compute_B_matrix (Ar := IEEE d)
                  [[x1; y1]; [x2; y2]; [x3; y3]])
      /\ TriangularElement.compute_B_matrix (Ar := IEEE d) [[x1; y1]; [x2; y2]; [x3; y3]]
         = inr (as_float (Ar := IEEE d)
                  (B_entries (Ar := IEEE d) A x1 y1 x2 y2 x3 y3)))
  /\ (forall x1 y1 x2 y2 x3 y3 : R,
         signed_area x1 y1 x2 y2 x3 y3 <= - 1e-10 ->
         ~ raises (TriangularElement.compute_B_matrix [[x1; y1]; [x2; y2]; [x3; y3]])
         /\ TriangularElement.compute_B_matrix [[x1; y1]; [x2; y2]; [x3; y3]]
            = inr (B_formula x1 y1 x2 y2 x3 y3)).
Proof.
  split.
  - intros d x1 y1 x2 y2 x3 y3 A H.
    assert (E : TriangularElement.compute_B_matrix (Ar := IEEE d)
                  [[x1; y1]; [x2; y2]; [x3; y3]]
                = inr (as_float (Ar := IEEE d)
                         (B_entries (Ar := IEEE d) A x1 y1 x2 y2 x3 y3))).
    { apply (single_returns (Ar := IEEE d)).
      exact (SFleb_opp_not_ltb_abs _ _ H). }
    split; [|exact E]. rewrite E. intros [msg Hm]. discriminate Hm.
  - intros x1 y1 x2 y2 x3 y3 H.
    assert (E : TriangularElement.compute_B_matrix [[x1; y1]; [x2; y2]; [x3; y3]]
                = inr (B_formula x1 y1 x2 y2 x3 y3)).
    { apply real_single_returns. rewrite Rabs_left; lra. }
    split; [|exact E]. rewrite E. intros [msg Hm]. discriminate Hm.
Qed.

Lemma compute_B_matrix_negative_area_witness :
  TriangularElement.compute_B_matrix (Ar := IEEE float32) clockwise_triangle32
  = inr [ [f32 (-1); f32 0; SFopp (f32 0); f32 0; f32 1; f32 0];
          [f32 0; f32 (-1); f32 0; f32 1; f32 0; SFopp (f32 0)];
          [f32 (-1); f32 (-1); f32 1; SFopp (f32 0); SFopp (f32 0); f32 1] ].
Proof.
  etransitivity.
  - apply (proj1 compute_B_matrix_negative_area float32
             (f32 0) (f32 0) (f32 0) (f32 1) (f32 1) (f32 0)).
    vm_compute. reflexivity.
  - vm_compute. reflexivity.
Defined.

(** The claim of C7 as stated fails: these float32 nodes are clockwise with
    area -1/2, the code computes area 0 and raises the degeneracy error. *)
Lemma compute_B_matrix_negative_area_counterexample :
  (exact_area thin_clockwise32 <= - (1 # 10000000000))%Q
  /\ TriangularElement.compute_B_matrix (Ar := IEEE float32) thin_clockwise32
     = inl (ValueError "The provided node coordinates result in a degenerate triangle with almost zero area.").
Proof.
  split; [vm_compute; discriminate | vm_compute; reflexivity].
Qed.

(** ** The batched B-matrix function *)

Lemma as_float_id {T : Type} {Ar : Arith T} (B : tensor2 T) :
  (forall x : T, s_float x = x) -> as_float B = B.
Proof.
  intros H. unfold as_float.
  rewrite (map_ext _ (fun row => row)); [apply map_id|].
  intros row. rewrite (map_ext _ (fun x => x) H). apply map_id.
Qed.

Lemma real_good_batch (batch : tensor3 R) :
  Forall (fun e => TriangularElement.is_3x2 e = true
                   /\ Rabs (area_of e) >= 1e-10) batch ->
  Forall (fun e => TriangularElement.is_3x2 e = true
                   /\ degenerate (area_of e) = false) batch.
Proof.
  intros H. eapply Forall_impl; [|exact H]. intros e [Hs Ha]. split; [exact Hs|].
  rewrite real_degenerate. apply Rltb_false. lra.
Qed.




(** C6. One triangle of a batch of shape (K,3,2) on whose computed area the
    degeneracy test fires makes the batched function raise for the whole
    batch: nothing is returned. *)
Theorem vectorized_rejects_batch (T : Type) (Ar : Arith T) (batch : tensor3 T) :
  Forall (fun e => TriangularElement.is_3x2 e = true) batch ->
  Exists (fun e => s_ltb (s_abs (area_of e)) (s_lit (1 # 10000000000)) = true) batch ->
  TriangularElement.compute_B_matrix_vectorized batch
  = inl (ValueError "At least one set of node coordinates result in a degenerate triangle with almost zero area.")
  /\ ~ returns (TriangularElement.compute_B_matrix_vectorized batch).
Proof.
  intros Hs Hd.
  assert (E : TriangularElement.compute_B_matrix_vectorized batch
              = inl (ValueError "At least one set of node coordinates result in a degenerate triangle with almost zero area.")).
  { rewrite vectorized_unfold.
    replace (forallb TriangularElement.is_3x2 batch) with true
      by (symmetry; apply forallb_forall; now apply Forall_forall).
    cbn [negb].
    replace (existsb _ batch) with true; [reflexivity|].
    symmetry. apply existsb_exists. apply Exists_exists in Hd.
    destruct Hd as (e & Hin & He). exists e. split; [exact Hin | exact He]. }
  split; [exact E|].
  rewrite E. intros [Bs HB]. discriminate HB.
Qed.

Lemma vectorized_rejects_batch_witness :
  TriangularElement.compute_B_matrix_vectorized (Ar := IEEE float32)
    [ unit_triangle32; [[f32 0; f32 0]; [f32 1; f32 1]; [f32 2; f32 2]] ]
  = inl (ValueError "At least one set of node coordinates result in a degenerate triangle with almost zero area.").
Proof.
  apply (vectorized_rejects_batch spec_float (IEEE float32)).
  - repeat constructor.
  - apply Exists_cons_tl, Exists_cons_hd. vm_compute. reflexivity.
Defined.

(** The claim of C6 as stated fails: the second triangle of this float32
    batch has area 0, the code computes area 1/2 for it and returns two
    matrices. *)
Lemma vectorized_rejects_batch_counterexample :
  Exists (fun e => (Qabs (exact_area e) < 1 # 10000000000)%Q)
    [unit_triangle32; collinear_triangle32]
  /\ returns (TriangularElement.compute_B_matrix_vectorized (Ar := IEEE float32)
                [unit_triangle32; collinear_triangle32]).
Proof.
  split.
  - apply Exists_cons_tl, Exists_cons_hd. vm_compute. reflexivity.
  - eexists. vm_compute. reflexivity.
Qed.

(** ** Shape functions *)

(** C4. [shape_functions] returns [(1 - xi) - eta], [xi] and [eta], the two
    subtractions in the arithmetic of the tensor and [xi], [eta] as given;
    over the reals the three values sum to 1 at every point. *)
Theorem shape_functions_sum :
  (forall (T : Type) (Ar : Arith T) (xi eta : T),
      TriangularElement.shape_functions [xi; eta]
      = inr [s_sub (s_sub (s_lit 1) xi) eta; xi; eta])
  /\ (forall xi eta : R,
         exists N, TriangularElement.shape_functions [xi; eta] = inr N
                   /\ List.length N = 3%nat /\ t_sum N = 1).
Proof.
  split; [reflexivity|].
  intros xi eta. eexists. split; [reflexivity|]. split; [reflexivity|].
  unfold t_sum. cbn. rewrite Q2R_0, Q2R_1. lra.
Qed.

(** The claim of C4 as stated fails in float32.  At [xi = eta = 1/3] the
    three returned values add up to 33554431/33554432.  At
    [xi = 33554432], [eta = 1/2] they add up to 1/2, and adding them in
    float32 gives 1/2 or 0 depending on the order, never 1. *)
Lemma shape_functions_sum_counterexample :
  (exists n1 n2 n3,
      TriangularElement.shape_functions (Ar := IEEE float32) [f32 (1 # 3); f32 (1 # 3)]
      = inr [n1; n2; n3]
      /\ (SF2Q n1 + SF2Q n2 + SF2Q n3 == 33554431 # 33554432)%Q)
  /\ (exists n1 n2 n3,
         TriangularElement.shape_functions (Ar := IEEE float32) [f32 33554432; f32 (1 # 2)]
         = inr [n1; n2; n3]
         /\ (SF2Q n1 + SF2Q n2 + SF2Q n3 == 1 # 2)%Q
         /\ SFadd 24 128 (SFadd 24 128 n1 n2) n3 = f32 (1 # 2)
         /\ SFadd 24 128 n1 (SFadd 24 128 n2 n3) = f32 0
         /\ SFadd 24 128 (SFadd 24 128 n1 n3) n2 = f32 0).
Proof.
  split.
  - do 3 eexists. split; [vm_compute; reflexivity|]. vm_compute. reflexivity.
  - do 3 eexists. split; [vm_compute; reflexivity|].
    repeat split; vm_compute; reflexivity.
Qed.

(** ** Von Mises stress *)

Section VonMisesNodewise.

Context {T : Type} {Ar : Arith T}.

Lemma von_mises_2d_uniaxial
    (add_zero_z : tensor2 T -> tensor2 T) (coords : tensor2 T)
    (displacements : tensor1 T) (node_strains : tensor2 T) (z : T) (ss : list T) :
  von_mises_stress
    (derive_fields add_zero_z 2 coords displacements node_strains
       (map (fun s => [s; z; z]) ss))
  = map (uniaxial_2d z) ss.
Proof.
  unfold derive_fields. cbn [Nat.eqb von_mises_stress].
  cbn [dict_get String.eqb Ascii.eqb Bool.eqb].
  cbv delta [tensor1 tensor2]. rewrite !slice1_map. cbn [nth].
  unfold von_mises_2d, t_sqrt, t_add, t_sub, t_mul, t_sq, t_scale.
  repeat (rewrite !map2_map || rewrite !map_map).
  reflexivity.
Qed.

Lemma von_mises_3d_uniaxial
    (add_zero_z : tensor2 T -> tensor2 T) (num_dims : nat) (coords : tensor2 T)
    (displacements : tensor1 T) (node_strains : tensor2 T) (z : T) (ss : list T) :
  num_dims <> 2%nat ->
  von_mises_stress
    (derive_fields add_zero_z num_dims coords displacements node_strains
       (map (fun s => [s; z; z; z; z; z]) ss))
  = map (uniaxial_3d z) ss.
Proof.
  intros Hnd. unfold derive_fields.
  destruct (Nat.eqb_spec num_dims 2) as [E|_]; [contradiction|].
  cbn [von_mises_stress].
  cbn [dict_get String.eqb Ascii.eqb Bool.eqb].
  cbv delta [tensor1 tensor2]. rewrite !slice1_map. cbn [nth].
  unfold von_mises_3d, t_sqrt, t_add, t_sub, t_mul, t_sq, t_scale.
  repeat (rewrite !map2_map || rewrite !map_map).
  reflexivity.
Qed.

End VonMisesNodewise.

Lemma sqrt_square_abs (s : R) : sqrt (s * s) = Rabs s.
Proof. exact (sqrt_Rsqr_abs s). Qed.

Lemma real_uniaxial_2d (s : R) : uniaxial_2d 0 s = Rabs s.
Proof.
  unfold uniaxial_2d. cbn. rewrite Q2R_3, <- sqrt_square_abs. f_equal. ring.
Qed.

Lemma real_uniaxial_3d (s : R) : uniaxial_3d 0 s = Rabs s.
Proof.
  unfold uniaxial_3d. cbn. rewrite Q2R_3, Q2R_half, <- sqrt_square_abs.
  f_equal. field.
Qed.

Lemma binary_round_aux_sign (prec emax : Z) (mx ex : Z) (lx : location) :
  sign_clear (binary_round_aux prec emax false mx ex lx).
Proof.
  unfold binary_round_aux.
  destruct (shr_fexp prec emax mx ex lx) as [mrs' e'].
  destruct (shr_fexp prec emax _ e' loc_Exact) as [mrs'' e''].
  destruct (shr_m mrs''); cbn; [reflexivity| |exact I].
  destruct (Z.leb _ _); reflexivity.
Qed.

Lemma SFmul_self_sign (prec emax : Z) (s : spec_float) :
  sign_clear (SFmul prec emax s s).
Proof.
  destruct s as [b|b| |b m e]; cbn; try (destruct b; reflexivity); try exact I.
  replace (xorb b b) with false by (destruct b; reflexivity).
  apply binary_round_aux_sign.
Qed.

Lemma binary_round_sign (prec emax : Z) (m : positive) (e : Z) :
  sign_clear (binary_round prec emax false m e).
Proof.
  unfold binary_round. destruct (shl_align _ _ _). apply binary_round_aux_sign.
Qed.

Lemma SFadd_self_sign (prec emax : Z) (q : spec_float) :
  sign_clear q -> sign_clear (SFadd prec emax q q).
Proof.
  destruct q as [b|b| |b m e]; cbn [sign_clear]; intros H; try subst b;
    try exact I; try reflexivity.
  unfold SFadd. cbn [cond_Zopp Z.add]. cbn [binary_normalize].
  apply binary_round_sign.
Qed.

Lemma SFmul_pos_sign (prec emax : Z) (m : positive) (e : Z) (q : spec_float) :
  sign_clear q -> sign_clear (SFmul prec emax (S754_finite false m e) q).
Proof.
  destruct q as [b|b| |b mq eq]; cbn [sign_clear]; intros H; try subst b;
    try exact I; try reflexivity.
  apply binary_round_aux_sign.
Qed.

(** Adding or subtracting a zero leaves such a float as it is. *)
Lemma SFsub_zero (prec emax : Z) (q : spec_float) (b : bool) :
  sign_clear q -> SFsub prec emax q (S754_zero b) = q.
Proof.
  destruct q as [s|s| |s m e]; cbn [sign_clear]; intros H; try subst s;
    try reflexivity.
  destruct b; reflexivity.
Qed.

Lemma SFadd_zero (prec emax : Z) (q : spec_float) :
  sign_clear q -> SFadd prec emax q (S754_zero false) = q.
Proof.
  destruct q as [s|s| |s m e]; cbn [sign_clear]; intros H; try subst s;
    reflexivity.
Qed.

Lemma lit_0 (d : dtype) : s_lit (Arith := IEEE d) 0 = S754_zero false.
Proof. destruct d; vm_compute; reflexivity. Qed.

Lemma lit_3 (d : dtype) :
  exists m e, s_lit (Arith := IEEE d) 3 = S754_finite false m e.
Proof. destruct d; do 2 eexists; vm_compute; reflexivity. Qed.

Lemma lit_half (d : dtype) :
  exists m e, s_lit (Arith := IEEE d) half = S754_finite false m e.
Proof. destruct d; do 2 eexists; vm_compute; reflexivity. Qed.

(** In float arithmetic the 2D expression on a uniaxial state is the root
    of the rounded square. *)
Lemma float_uniaxial_2d (d : dtype) (s : spec_float) :
  not_infinite s ->
  uniaxial_2d (Ar := IEEE d) (S754_zero false) s
  = SFsqrt (prec_of d) (emax_of d) (SFmul (prec_of d) (emax_of d) s s).
Proof.
  intros Hs. unfold uniaxial_2d.
  destruct (lit_3 d) as (m3 & e3 & E3). rewrite E3.
  cbn [s_sqrt s_add s_sub s_mul IEEE].
  pose proof (SFmul_self_sign (prec_of d) (emax_of d) s) as Hq.
  set (q := SFmul (prec_of d) (emax_of d) s s) in *.
  assert (Ez : SFmul (prec_of d) (emax_of d) (S754_zero false) (S754_zero false)
               = S754_zero false) by reflexivity.
  rewrite Ez.
  assert (E3z : SFmul (prec_of d) (emax_of d) (S754_finite false m3 e3) (S754_zero false)
                = S754_zero false) by reflexivity.
  rewrite E3z.
  assert (Es : SFsub (prec_of d) (emax_of d) q
                 (SFmul (prec_of d) (emax_of d) s (S754_zero false)) = q).
  { destruct s as [b|b| |b m e]; cbn [SFmul].
    - now apply SFsub_zero.
    - contradiction.
    - subst q. reflexivity.
    - now apply SFsub_zero. }
  rewrite Es. rewrite (SFadd_zero _ _ q Hq). rewrite (SFadd_zero _ _ q Hq).
  reflexivity.
Qed.

(** The 3D expression is the root of half the doubled rounded square. *)
Lemma float_uniaxial_3d (d : dtype) (s : spec_float) :
  not_infinite s ->
  uniaxial_3d (Ar := IEEE d) (S754_zero false) s
  = SFsqrt (prec_of d) (emax_of d)
      (SFmul (prec_of d) (emax_of d) (s_lit (Arith := IEEE d) half)
         (SFadd (prec_of d) (emax_of d)
            (SFmul (prec_of d) (emax_of d) s s)
            (SFmul (prec_of d) (emax_of d) s s))).
Proof.
  intros Hs. unfold uniaxial_3d.
  destruct (lit_3 d) as (m3 & e3 & E3). rewrite E3.
  destruct (lit_half d) as (mh & eh & Eh). rewrite Eh.
  cbn [s_sqrt s_add s_sub s_mul IEEE].
  pose proof (SFmul_self_sign (prec_of d) (emax_of d) s) as Hq.
  set (q := SFmul (prec_of d) (emax_of d) s s) in *.
  assert (E1 : SFsub (prec_of d) (emax_of d) s (S754_zero false) = s
               \/ exists b, s = S754_zero b).
  { destruct s as [b|b| |b m e]; [right; now exists b | contradiction | left | left];
      reflexivity. }
  assert (Ezz : SFsub (prec_of d) (emax_of d) (S754_zero false) (S754_zero false)
                = S754_zero false) by reflexivity.
  assert (Ez : SFmul (prec_of d) (emax_of d) (S754_zero false) (S754_zero false)
               = S754_zero false) by reflexivity.
  assert (Sq1 : SFmul (prec_of d) (emax_of d)
                  (SFsub (prec_of d) (emax_of d) s (S754_zero false))
                  (SFsub (prec_of d) (emax_of d) s (S754_zero false)) = q).
  { destruct s as [b|b| |b m e]; [destruct b; reflexivity | contradiction
                                  | reflexivity | reflexivity]. }
  assert (Sq2 : SFmul (prec_of d) (emax_of d)
                  (SFsub (prec_of d) (emax_of d) (S754_zero false) s)
                  (SFsub (prec_of d) (emax_of d) (S754_zero false) s) = q).
  { destruct s as [b|b| |b m e]; [destruct b; reflexivity | contradiction
                                  | reflexivity | ].
    subst q. cbn [SFsub SFmul]. destruct b; reflexivity. }
  rewrite Sq1, Sq2, Ezz, Ez.
  rewrite (SFadd_zero _ _ q Hq).
  assert (Z3 : SFmul (prec_of d) (emax_of d) (S754_finite false m3 e3)
                 (SFadd (prec_of d) (emax_of d)
                    (SFadd (prec_of d) (emax_of d) (S754_zero false) (S754_zero false))
                    (S754_zero false)) = S754_zero false) by reflexivity.
  rewrite Z3.
  rewrite SFadd_zero; [reflexivity|].
  apply SFmul_pos_sign, SFadd_self_sign, Hq.
Qed.




(** ** Rigid translations *)

(** C10. Over the reals, the entries [b1, b2, b3] and [c1, c2, c3] of the
    B-matrix of a non-degenerate triangle each sum to zero, so a rigid
    translation [(u, v, u, v, u, v)] has zero strain. *)
Theorem rigid_translation_zero_strain (x1 y1 x2 y2 x3 y3 u v : R) :
  Rabs (signed_area x1 y1 x2 y2 x3 y3) >= 1e-10 ->
  exists B,
    TriangularElement.compute_B_matrix [[x1; y1]; [x2; y2]; [x3; y3]] = inr B
    /\ coord B 0 0 + coord B 0 2 + coord B 0 4 = 0
    /\ coord B 1 1 + coord B 1 3 + coord B 1 5 = 0
    /\ matvec B [u; v; u; v; u; v] = [0; 0; 0].
Proof.
  intros H. apply Rge_le in H.
  exists (B_formula x1 y1 x2 y2 x3 y3).
  split; [exact (real_single_returns _ _ _ _ _ _ H)|].
  pose proof (area_nonzero _ _ _ _ _ _ H) as Hne.
  unfold B_formula, signed_area, matvec, dot, t_sum, t_mul, coord.
  cbn. rewrite Q2R_0.
  repeat split; [field; exact Hne | field; exact Hne |].
  repeat (apply f_equal2; [field; exact Hne|]). reflexivity.
Qed.

Lemma rigid_translation_zero_strain_witness :
  Rabs (signed_area 0 0 1 0 0 1) >= 1e-10 /\
  exists B,
    TriangularElement.compute_B_matrix [[0; 0]; [1; 0]; [0; 1]] = inr B
    /\ matvec B [3; 4; 3; 4; 3; 4] = [0; 0; 0].
Proof.
  assert (H : Rabs (signed_area 0 0 1 0 0 1) >= 1e-10).
  { unfold signed_area. rewrite Rabs_right; lra. }
  split; [exact H|].
  destruct (rigid_translation_zero_strain 0 0 1 0 0 1 3 4 H) as (B & HB & _ & _ & HZ).
  exists B. split; assumption.
Defined.

(** The claim of C10 as stated fails in float32: for the nodes (0,0),
    (2,1), (-1,3), of area 7/2, the returned [b1, b2, b3] add up to
    [-2^-26], and the translation (1,0,1,0,1,0) gets a non-zero strain. *)
Lemma rigid_translation_zero_strain_counterexample :
  (1 # 10000000000 <= Qabs (exact_area skew_triangle32))%Q
  /\ exists B,
       TriangularElement.compute_B_matrix (Ar := IEEE float32) skew_triangle32 = inr B
       /\ (SF2Q (coord (Ar := IEEE float32) B 0 0)
           + SF2Q (coord (Ar := IEEE float32) B 0 2)
           + SF2Q (coord (Ar := IEEE float32) B 0 4) == - (1 # 67108864))%Q
       /\ matvec (Ar := IEEE float32) B [f32 1; f32 0; f32 1; f32 0; f32 1; f32 0]
          = [S754_finite true 8388608 (-48); f32 0; S754_finite false 8388608 (-48)].
Proof.
  split; [vm_compute; discriminate|].
  eexists. split; [vm_compute; reflexivity|].
  split; vm_compute; reflexivity.
Qed.

(** ** The driver *)

Ltac run_call :=
  match goal with
  | |- context [exec ?F ?c ?m] =>
      let E := fresh "E" in
      destruct (exec F c m) eqn:E; cbn
  end.

Ltac unfold_driver :=
  unfold script, main, initialize_model, run_analysis, post_processing, invoke;
  unfold mbind, logger_info, time_time, get_args, put_args, emit, mret;
  cbn.

(** C8. The stages of a run happen in program order, each method left
    before the next is entered, on the model object its predecessor left:
    mass and stiffness computation, the three assemblies, the modal solve
    and only then the recovery of [post_processing]. *)
Theorem pipeline_order {T : Type} {Ar : Arith T} (F : Collaborators T) (a : Namespace) :
  (exists rest,
     stage_events (trace (snd (script F a))) ++ rest = bracketed (calls_in_order a))
  /\ (fst (script F a) = inr tt ->
      stage_events (trace (snd (script F a))) = bracketed (calls_in_order a))
  /\ fst (script F a)
     = match run_calls F (calls_in_order a) (FiniteElementModel F) with
       | inl e => inl e
       | inr _ => inr tt
       end.
Proof.
  unfold_driver.
  repeat (run_call;
          [split; [eexists; reflexivity | split; [discriminate | reflexivity]] | ]).
  split; [exists []; reflexivity | split; reflexivity].
Qed.

Lemma pipeline_order_witness :
  fst (script unit_collaborators sample_args) = inr tt
  /\ stage_events (trace (snd (script unit_collaborators sample_args)))
     = bracketed (calls_in_order sample_args).
Proof.
  assert (H : fst (script unit_collaborators sample_args) = inr tt) by reflexivity.
  split; [exact H|].
  exact (proj1 (proj2 (pipeline_order unit_collaborators sample_args)) H).
Defined.

Ltac not_in_trace :=
  let H := fresh "H" in
  intros H; repeat (destruct H as [H|H]; [discriminate H|]); exact H.

(** C9. [run_analysis] overwrites [args.incompatible_mode_element] with
    [True] before it branches on it: two runs that differ only in the flag
    raise or return alike and log the same events;
    [compute_element_stiffness] is never entered; and once the three
    stages before the branch have returned, the flag holds [True] and the
    stage entered is [compute_element_stiffness_with_shear_locking]. *)
Theorem flag_has_no_effect {T : Type} (F : Collaborators T) (model : Model F)
    (w : world T) (b1 b2 : bool) :
  fst (run_analysis F model (with_flag b1 w)) = fst (run_analysis F model (with_flag b2 w))
  /\ trace (snd (run_analysis F model (with_flag b1 w)))
     = trace (snd (run_analysis F model (with_flag b2 w)))
  /\ exists new,
       trace (snd (run_analysis F model (with_flag b1 w))) = trace w ++ new
       /\ ~ In (Enter compute_element_stiffness) new
       /\ (exists rest, stage_events new ++ rest = bracketed analysis_calls)
       /\ (forall m, run_calls F calls_before_branch model = inr m ->
           incompatible_mode_element
             (g_args (snd (run_analysis F model (with_flag b1 w)))) = true
           /\ exists before after,
                new = before ++ Enter compute_element_stiffness_with_shear_locking :: after
                /\ stage_events before = bracketed calls_before_branch).
Proof.
  unfold_driver.
  repeat (run_call;
          [ split; [reflexivity|]; split; [reflexivity|];
            repeat rewrite <- app_assoc; eexists; split; [reflexivity|];
            cbn; split; [not_in_trace|];
            split; [eexists; reflexivity|];
            first
              [ intros ? Hm; discriminate Hm
              | intros ? Hm; split; [reflexivity|];
                eexists [Clock; Log _; Enter _; Leave _; Enter _; Leave _; Enter _; Leave _];
                eexists; split; reflexivity ]
          | ]).
  split; [reflexivity|]. split; [reflexivity|].
  repeat rewrite <- app_assoc. eexists. split; [reflexivity|].
  cbn. split; [not_in_trace|].
  split; [exists []; reflexivity|].
  intros ? Hm. split; [reflexivity|].
  eexists [Clock; Log _; Enter _; Leave _; Enter _; Leave _; Enter _; Leave _].
  eexists. split; reflexivity.
Qed.

Lemma flag_has_no_effect_witness :
  exists new,
    trace (snd (run_analysis unit_collaborators tt
                  (with_flag false {| g_args := sample_args; trace := [] |}))) = new
    /\ incompatible_mode_element
         (g_args (snd (run_analysis unit_collaborators tt
                         (with_flag false {| g_args := sample_args; trace := [] |})))) = true
    /\ In (Enter compute_element_stiffness_with_shear_locking) new.
Proof.
  destruct (flag_has_no_effect unit_collaborators tt
              {| g_args := sample_args; trace := [] |} false true)
    as (_ & _ & new & Hnew & _ & _ & Hrun).
  destruct (Hrun tt eq_refl) as (Hflag & before & after & Hsplit & _).
  exists new. split; [exact Hnew|]. split; [exact Hflag|].
  rewrite Hsplit. apply in_or_app. right. left. reflexivity.
Defined.

(** X18. The whole script is blind to [--incompatible_mode_element]: two
    command lines that differ only in that flag raise or return alike and
    leave the same trace, VTK output included. *)
Theorem script_ignores_flag {T : Type} {Ar : Arith T} (F : Collaborators T)
    (a : Namespace) (b1 b2 : bool) :
  fst (script F (set_incompatible_mode_element b1 a))
  = fst (script F (set_incompatible_mode_element b2 a))
  /\ trace (snd (script F (set_incompatible_mode_element b1 a)))
     = trace (snd (script F (set_incompatible_mode_element b2 a))).
Proof.
  unfold_driver.
  repeat (run_call; [split; reflexivity | ]).
  split; reflexivity.
Qed.

(** X19. [run_analysis] touches nothing of [args] but the flag: the device
    and the three paths stay as they were, and when it returns the flag is
    [True], whatever it was. *)
Theorem run_analysis_args {T : Type} (F : Collaborators T) (model : Model F)
    (w : world T) :
  let w' := snd (run_analysis F model w) in
  (g_args w' = g_args w
   \/ g_args w' = set_incompatible_mode_element true (g_args w))
  /\ (returns (fst (run_analysis F model w)) ->
      g_args w' = set_incompatible_mode_element true (g_args w)).
Proof.
  cbv zeta. unfold_driver.
  repeat (run_call;
          [ split; [first [left; reflexivity | right; reflexivity]|];
            intros [x Hx]; discriminate Hx
          | ]).
  split; [right; reflexivity|]. intros _; reflexivity.
Qed.

Lemma run_analysis_args_witness :
  g_args (snd (run_analysis unit_collaborators tt {| g_args := sample_args; trace := [] |}))
  = set_incompatible_mode_element true sample_args.
Proof.
  apply (proj2 (run_analysis_args unit_collaborators tt
                  {| g_args := sample_args; trace := [] |})).
  exists tt. reflexivity.
Defined.

Lemma stride_from_nth_error {X : Type} (l : list X) :
  forall skip step k,
    (1 <= step)%nat ->
    nth_error (stride_from skip step l) k = nth_error l (skip + k * step).
Proof.
  induction l as [|x l IH]; intros skip step k Hs.
  - cbn [stride_from]. now rewrite !nth_error_nil.
  - destruct skip as [|skip]; cbn [stride_from].
    + destruct k as [|k]; [reflexivity|].
      cbn [nth_error]. rewrite IH by exact Hs.
      replace (0 + S k * step)%nat with (S (Nat.pred step + k * step)) by lia.
      reflexivity.
    + rewrite IH by exact Hs. reflexivity.
Qed.

(** X15. The displacement vector is split by degree of freedom: entry [k]
    of [disp_x], [disp_y] (and [disp_z]) is entry [2k], [2k+1] of
    [global_displacements] in 2D and entry [3k], [3k+1], [3k+2] in 3D;
    past the end of the vector there is no entry. *)
Theorem displacement_components {T : Type} {Ar : Arith T}
    (add_zero_z : tensor2 T -> tensor2 T) (num_dims : nat) (coords : tensor2 T)
    (displacements : tensor1 T) (node_strains node_stresses : tensor2 T) (k : nat) :
  let d2 := disp_dict (derive_fields add_zero_z 2 coords displacements
                         node_strains node_stresses) in
  let d3 := disp_dict (derive_fields add_zero_z num_dims coords displacements
                         node_strains node_stresses) in
  (nth_error (dict_get "disp_x" d2) k = nth_error displacements (2 * k)
   /\ nth_error (dict_get "disp_y" d2) k = nth_error displacements (2 * k + 1)
   /\ map fst d2 = ["disp_x"; "disp_y"]%string)
  /\ (num_dims <> 2%nat ->
      nth_error (dict_get "disp_x" d3) k = nth_error displacements (3 * k)
      /\ nth_error (dict_get "disp_y" d3) k = nth_error displacements (3 * k + 1)
      /\ nth_error (dict_get "disp_z" d3) k = nth_error displacements (3 * k + 2)
      /\ map fst d3 = ["disp_x"; "disp_y"; "disp_z"]%string).
Proof.
  cbv zeta. split.
  - unfold derive_fields. cbn [Nat.eqb disp_dict].
    cbn [dict_get String.eqb Ascii.eqb Bool.eqb map fst].
    unfold stride. rewrite !stride_from_nth_error by lia.
    repeat split; f_equal; lia.
  - intros Hnd. unfold derive_fields.
    destruct (Nat.eqb_spec num_dims 2) as [E|_]; [contradiction|].
    cbn [disp_dict].
    cbn [dict_get String.eqb Ascii.eqb Bool.eqb map fst].
    unfold stride. rewrite !stride_from_nth_error by lia.
    repeat split; f_equal; lia.
Qed.

Lemma displacement_components_witness :
  nth_error
    (dict_get "disp_z"
       (disp_dict (derive_fields (fun t => t) 3 [] [10; 11; 12; 13; 14; 15] [] []))) 1
  = nth_error [10; 11; 12; 13; 14; 15] (3 * 1 + 2).
Proof.
  apply (proj2 (displacement_components (fun t => t) 3 [] [10; 11; 12; 13; 14; 15] [] [] 1)).
  discriminate.
Defined.

(** ** Further properties of the triangular element *)

(** X8. A batch may be split anywhere: the batched function returns on
    [b1 ++ b2] exactly when it returns on [b1] and on [b2], and the result
    is the two results one after the other. *)
Theorem vectorized_concat {T : Type} {Ar : Arith T} (b1 b2 Bs : tensor3 T) :
  TriangularElement.compute_B_matrix_vectorized (b1 ++ b2) = inr Bs
  <-> exists B1 B2,
        TriangularElement.compute_B_matrix_vectorized b1 = inr B1
        /\ TriangularElement.compute_B_matrix_vectorized b2 = inr B2
        /\ Bs = (B1 ++ B2)%list.
Proof.
  split.
  - intros H. destruct (vectorized_inv _ _ H) as (Hs & Ha & ->).
    rewrite forallb_app in Hs. apply andb_true_iff in Hs as [Hs1 Hs2].
    rewrite existsb_app in Ha. apply orb_false_iff in Ha as [Ha1 Ha2].
    exists (map B_of b1), (map B_of b2).
    repeat split; try now apply vectorized_intro.
    apply map_app.
  - intros (B1 & B2 & H1 & H2 & ->).
    destruct (vectorized_inv _ _ H1) as (Hs1 & Ha1 & ->).
    destruct (vectorized_inv _ _ H2) as (Hs2 & Ha2 & ->).
    rewrite <- map_app. apply vectorized_intro.
    + rewrite forallb_app, Hs1, Hs2. reflexivity.
    + rewrite existsb_app, Ha1, Ha2. reflexivity.
Qed.

Lemma vectorized_concat_witness :
  exists B1 B2,
    TriangularElement.compute_B_matrix_vectorized (Ar := IEEE float32) [unit_triangle32]
    = inr B1
    /\ TriangularElement.compute_B_matrix_vectorized (Ar := IEEE float32)
         [clockwise_triangle32] = inr B2
    /\ map (B_of (Ar := IEEE float32)) [unit_triangle32; clockwise_triangle32]
       = (B1 ++ B2)%list.
Proof.
  apply (proj1 (vectorized_concat (Ar := IEEE float32) [unit_triangle32]
                  [clockwise_triangle32] _)).
  apply (vectorized_intro (Ar := IEEE float32)); vm_compute; reflexivity.
Defined.

(** X9. What the batched function returns on a batch of [K] elements has
    shape [(K, 3, 6)]. *)
Theorem vectorized_shape {T : Type} {Ar : Arith T} (batch Bs : tensor3 T) :
  TriangularElement.compute_B_matrix_vectorized batch = inr Bs ->
  List.length Bs = List.length batch /\ Forall is_3x6 Bs.
Proof.
  intros H. destruct (vectorized_inv _ _ H) as (_ & _ & ->).
  split; [apply length_map|].
  apply Forall_forall. intros B HB. apply in_map_iff in HB as (e & <- & _).
  apply B_of_is_3x6.
Qed.

Lemma vectorized_shape_witness :
  List.length (map (B_of (Ar := IEEE float32)) [unit_triangle32]) = 1%nat
  /\ Forall is_3x6 (map (B_of (Ar := IEEE float32)) [unit_triangle32]).
Proof.
  apply (vectorized_shape (Ar := IEEE float32) [unit_triangle32]).
  apply (vectorized_intro (Ar := IEEE float32)); vm_compute; reflexivity.
Defined.



Lemma SFdiv_nan_r (prec emax : Z) (x : spec_float) :
  SFdiv prec emax x S754_nan = S754_nan.
Proof. destruct x; reflexivity. Qed.

Lemma SFmul_nan_r (prec emax : Z) (x : spec_float) :
  SFmul prec emax x S754_nan = S754_nan.
Proof. destruct x; reflexivity. Qed.

(** X20. The degeneracy check does not catch a NaN area (a NaN or infinite
    coordinate, or an overflow on the way): in float arithmetic of either
    dtype the triangle is accepted and every [bi] and [ci] of the returned
    matrix is NaN. *)
Theorem nan_area_not_rejected (d : dtype) (x1 y1 x2 y2 x3 y3 : spec_float) :
  computed_area (Ar := IEEE d) x1 y1 x2 y2 x3 y3 = S754_nan ->
  TriangularElement.compute_B_matrix (Ar := IEEE d) [[x1; y1]; [x2; y2]; [x3; y3]]
  = inr [ [S754_nan; S754_zero false; S754_nan; S754_zero false; S754_nan; S754_zero false];
          [S754_zero false; S754_nan; S754_zero false; S754_nan; S754_zero false; S754_nan];
          [S754_nan; S754_nan; S754_nan; S754_nan; S754_nan; S754_nan] ].
Proof.
  intros H. rewrite (single_unfold (Ar := IEEE d)), H.
  unfold degenerate. cbn [s_ltb s_abs IEEE SFabs SFltb SFcompare].
  unfold ret, as_float, B_entries. rewrite lit_0.
  cbn [s_div s_mul s_sub s_float IEEE].
  rewrite SFmul_nan_r, !SFdiv_nan_r.
  destruct d; reflexivity.
Qed.

Lemma nan_area_not_rejected_witness :
  returns (TriangularElement.compute_B_matrix (Ar := IEEE float32)
             [[S754_nan; f32 0]; [f32 1; f32 0]; [f32 0; f32 1]]).
Proof.
  eexists.
  apply (nan_area_not_rejected float32 S754_nan (f32 0) (f32 1) (f32 0) (f32 0) (f32 1)).
  vm_compute. reflexivity.
Defined.

(** ** Sample runs *)

Example shape_functions_bad_length :
  TriangularElement.shape_functions (Ar := IEEE float32) [f32 1; f32 2; f32 3]
  = inl (ValueError "too many values to unpack (expected 2)").
Proof. reflexivity. Qed.

Example compute_B_matrix_bad_shape :
  TriangularElement.compute_B_matrix (Ar := IEEE float64) [[f64 0; f64 0]; [f64 1; f64 0]]
  = inl (ValueError "node_coords shape should be (3, 2) for a single triangle").
Proof. reflexivity. Qed.

Example vectorized_bad_shape :
  TriangularElement.compute_B_matrix_vectorized (Ar := IEEE float32)
    [ [[f32 0; f32 0]; [f32 1; f32 0]] ]
  = inl (ValueError "node_coords shape should be (num_elements, 3, 2) for multiple triangles").
Proof. reflexivity. Qed.

Example vectorized_empty_batch :
  TriangularElement.compute_B_matrix_vectorized (Ar := IEEE float32) [] = inr [].
Proof. reflexivity. Qed.

Example stride_every_second : stride 1 2 [10; 11; 12; 13; 14]%nat = [11; 13]%nat.
Proof. reflexivity. Qed.

Example singular_run_stops_at_solver :
  fst (script singular_collaborators sample_args)
  = inl (OtherError "RuntimeError" "singular matrix")
  /\ stage_events (trace (snd (script singular_collaborators sample_args)))
     = (bracketed (firstn 11 (calls_in_order sample_args))
        ++ [Enter solve_system_modal])%list.
Proof. split; reflexivity. Qed.

Example flag_is_set_after_run :
  incompatible_mode_element
    (g_args (snd (run_analysis unit_collaborators tt
                    {| g_args := sample_args; trace := [] |}))) = true.
Proof. reflexivity. Qed.
